(** * DuckDuckGo search tool: a shallow embedding and its properties

    The embedded program is the search-tool adapter of the agent framework
    (class [DuckDuckGoSearchTool] and its output class
    [DuckDuckGoSearchToolOutput]).

    Conventions of the embedding.
    - A JavaScript object used as an option bag ([SearchOptions],
      [NeedleOptions], the header set) is a finite map from property
      names to values.  Object spread [{...a, ...b}] keeps the value of
      [b] on a key collision; stdpp's union keeps the LEFT operand, so the
      spread is written [b ∪ a].
    - Numbers of the configuration (results per page, offsets, throttle
      limits) are integers, modelled by [Z].  The raw tool input may carry
      any JavaScript number; those are modelled by [number] below.
    - [_run] is asynchronous and effectful.  Its effects (drawing a header
      set, calling the search backend) are threaded through an explicit
      [World], and its failures through a sum type. *)

From Stdlib Require Import Ascii String QArith Qround.
From stdpp Require Import gmap strings list fin_maps.

Local Open Scope string_scope.
Local Open Scope Z_scope.

(** ** Values carried by option bags *)

(** [SafeSearchType] of the search backend. *)
Inductive SafeSearchType := STRICT | MODERATE | OFF.

(** A transport agent: the proxying agent built from a URL by
    [new HttpsProxyAgent(url)], or any other agent object the caller
    supplies, identified by a tag. *)
Inductive Agent :=
  | HttpsProxyAgent (url : string)
  | CustomAgent (tag : nat).

Inductive Value :=
  | VUndefined
  | VNull
  | VBool (b : bool)
  | VNum (n : Z)
  | VStr (s : string)
  | VSafeSearch (t : SafeSearchType)
  | VHeaders (h : gmap string string)
  | VAgent (a : Agent).

(** An option bag: [SearchOptions], [NeedleOptions], transport options. *)
Abbreviation Options := (gmap string Value).

(** [{...a, ...b}] where either operand may be [undefined] (spreading
    [undefined] contributes no key). *)
Definition spread (o : option Options) : Options := default ∅ o.

(** JavaScript truthiness of an optional string ([if (s)]): absent and the
    empty string are falsy. *)
Definition truthy (o : option string) : bool :=
  match o with
  | Some s => negb (String.eqb s "")
  | None => false
  end.

(** ** Configuration *)

(** Options of the throttling library.  Both fields are read with [?.]
    and [??] by the source, so they are optional here. *)
Record ThrottleOptions := {
  limit : option Z;
  interval : option Z;
  strict : option bool;
}.

(** The field [throttle?: ThrottleOptions | false]. *)
Inductive ThrottleSetting :=
  | ThrottleAbsent
  | ThrottleFalse
  | ThrottleWith (o : ThrottleOptions).

(** [Partial<DuckDuckGoSearchToolOptions>], the constructor's argument. *)
Record PartialToolOptions := {
  p_search : option Options;
  p_throttle : ThrottleSetting;
  p_httpClientOptions : option Options;
  p_maxResultsPerPage : option Z;
  p_apiKey : option string;
  p_http_proxy_url : option string;
}.

(** [DuckDuckGoSearchToolOptions]: [maxResultsPerPage] is mandatory. *)
Record DuckDuckGoSearchToolOptions := {
  search : option Options;
  throttle : ThrottleSetting;
  httpClientOptions : option Options;
  maxResultsPerPage : Z;
  apiKey : option string;
  http_proxy_url : option string;
}.

(** [DuckDuckGoSearchToolRunOptions]. *)
Record DuckDuckGoSearchToolRunOptions := {
  r_search : option Options;
  r_httpClientOptions : option Options;
}.

(** ** The client *)

(** The arguments [pThrottle] receives: [limit] and [interval] are always
    set by the caller below. *)
Record ThrottleGate := {
  g_limit : Z;
  g_interval : Z;
  g_strict : option bool;
}.

(** What [this.client] is: the raw backend function itself, or that
    function wrapped by a throttle gate. *)
Inductive Client :=
  | rawDDGSearch_client
  | pThrottle_client (g : ThrottleGate).

(** [_createClient]: only [throttle === false] yields the raw function;
    otherwise the gate is built from [{...throttle, limit: throttle?.limit
    ?? 1, interval: throttle?.interval ?? 3000}]. *)
Definition _createClient (options : DuckDuckGoSearchToolOptions) : Client :=
  match throttle options with
  | ThrottleFalse => rawDDGSearch_client
  | ThrottleAbsent =>
      pThrottle_client {| g_limit := 1; g_interval := 3000; g_strict := None |}
  | ThrottleWith t =>
      pThrottle_client {| g_limit := default 1 (limit t);
                          g_interval := default 3000 (interval t);
                          g_strict := strict t |}
  end.

(** ** The tool *)

Record DuckDuckGoSearchTool := {
  options : DuckDuckGoSearchToolOptions;
  client : Client;
}.

(** The options the constructor hands to the base class:
    [{...options, maxResultsPerPage: options?.maxResultsPerPage ?? 15}]. *)
Definition constructor_options (o : PartialToolOptions)
  : DuckDuckGoSearchToolOptions :=
  {| search := p_search o;
     throttle := p_throttle o;
     httpClientOptions := p_httpClientOptions o;
     maxResultsPerPage := default 15 (p_maxResultsPerPage o);
     apiKey := p_apiKey o;
     http_proxy_url := p_http_proxy_url o |}.

(** The constructor's default argument [options = {}]. *)
Definition empty_options : PartialToolOptions :=
  {| p_search := None; p_throttle := ThrottleAbsent;
     p_httpClientOptions := None; p_maxResultsPerPage := None;
     p_apiKey := None; p_http_proxy_url := None |}.

Definition constructor (o : PartialToolOptions) : DuckDuckGoSearchTool :=
  let opts := constructor_options o in
  {| options := opts; client := _createClient opts |}.

(** ** Results, output and snapshots *)

(** The three properties of a search result that the tool reads from the
    backend and writes to its output. *)
Record SearchToolResult := {
  title : string;
  description : string;
  url : string;
}.

(** [DuckDuckGoSearchToolOutput]: its only state is [results]. *)
Record DuckDuckGoSearchToolOutput := {
  results : list SearchToolResult;
}.

(** The object literal [{ results: ... }] returned by [createSnapshot]. *)
Record OutputSnapshot := {
  snapshot_results : list SearchToolResult;
}.

Definition createSnapshot (this : DuckDuckGoSearchToolOutput) : OutputSnapshot :=
  {| snapshot_results := results this |}.

(** [Object.assign(this, snapshot)]: every property of the snapshot, that
    is [results], is written over the receiver's. *)
Definition loadSnapshot (this : DuckDuckGoSearchToolOutput)
    (snapshot : OutputSnapshot) : DuckDuckGoSearchToolOutput :=
  {| results := snapshot_results snapshot |}.

(** The tool's own [loadSnapshot]: the restored options are taken over and
    the client is derived from them again. *)
Definition tool_loadSnapshot (snapshot : DuckDuckGoSearchToolOptions)
  : DuckDuckGoSearchTool :=
  {| options := snapshot; client := _createClient snapshot |}.

(** ** Effects *)

(** One outbound call: the three arguments of [this.client(...)] and the
    client it went through. *)
Record Call := {
  call_query : string;
  call_search : Options;
  call_transport : Options;
  call_client : Client;
}.

(** What a run can observe and change: the calls made to the search
    backend so far and the number of header sets drawn from the header
    generator. *)
Record World := {
  backend_calls : list Call;
  headers_drawn : nat;
}.

Inductive Issue := invalid_type | too_small | too_big | not_integer.

Inductive Error :=
  | ValidationError (issues : list (string * Issue))
  | RangeError
  | TypeError
  | BackendFailure (message : string).

(** Computations that read and write the world and may throw. *)
Definition M (A : Type) : Type := World -> (Error + A) * World.

Definition ret {A} (a : A) : M A := fun w => (inr a, w).

Definition throw {A} (e : Error) : M A := fun w => (inl e, w).

Definition bind {A B} (m : M A) (k : A -> M B) : M B :=
  fun w =>
    match m w with
    | (inl e, w') => (inl e, w')
    | (inr a, w') => k a w'
    end.

Notation "x <- m ;; k" := (bind m (fun x => k))
  (at level 100, m at next level, right associativity).

Definition lift {A} (r : Error + A) : M A :=
  match r with inl e => throw e | inr a => ret a end.

(** [array.length = n] for an array longer than [n]: a negative length
    throws [RangeError], otherwise the first [n] elements stay. *)
Definition set_length {A} (a : list A) (n : Z) : Error + list A :=
  if n <? 0 then inl RangeError else inr (take (Z.to_nat n) a).

(** Lines 155-157: [if (results.length > cap) results.length = cap]. *)
Definition truncate {A} (cap : Z) (a : list A) : Error + list A :=
  if Z.of_nat (length a) >? cap then set_length a cap else inr a.

(** ** Raw tool input and the schema library *)

(** A JavaScript number of the raw input: finite numbers are rationals. *)
Inductive number :=
  | NaN
  | Infinity (negative : bool)
  | Finite (q : Q).

(** A raw input value, as the caller (a language model or a program)
    supplies it. *)
Inductive Raw :=
  | RUndefined
  | RNull
  | RBool (b : bool)
  | RNumber (n : number)
  | RString (s : string).

(** The validated input, [ToolInput<this>]: [page] may still be
    [undefined]; a present page has passed [.int()] and is carried as an
    integer. *)
Record ToolInput := {
  query : string;
  page : option Z;
}.

Definition ParseResult (A : Type) : Type := list Issue + A.

Definition Parser (A : Type) : Type := Raw -> ParseResult A.

Definition check_result {A} (issues : list Issue) (a : A) : ParseResult A :=
  match issues with
  | [] => inr a
  | _ => inl issues
  end.

(** [z.string()] with its chained length checks. *)
Inductive StringCheck := string_min (n : nat) | string_max (n : nat).

Definition run_string_check (s : string) (c : StringCheck) : list Issue :=
  match c with
  | string_min n => if (String.length s <? n)%nat then [too_small] else []
  | string_max n => if (n <? String.length s)%nat then [too_big] else []
  end.

Definition z_string (checks : list StringCheck) : Parser string :=
  fun v =>
    match v with
    | RString s => check_result (flat_map (run_string_check s) checks) s
    | _ => inl [invalid_type]
    end.

(** [Number.isInteger]. *)
Definition Number_isInteger (n : number) : bool :=
  match n with
  | Finite q => Qeq_bool (inject_Z (Qfloor q)) q
  | _ => false
  end.

(** [n < m] and [n > m] against an integer bound ([NaN] never reaches
    these checks). *)
Definition number_ltb (n : number) (m : Z) : bool :=
  match n with
  | NaN => false
  | Infinity negative => negative
  | Finite q => negb (Qle_bool (inject_Z m) q)
  end.

Definition number_gtb (n : number) (m : Z) : bool :=
  match n with
  | NaN => false
  | Infinity negative => negb negative
  | Finite q => negb (Qle_bool q (inject_Z m))
  end.

(** A number that lies outside the page domain from 1 to 10. *)
Definition outside_page_domain (n : number) : Prop :=
  match n with
  | NaN => False
  | Infinity _ => True
  | Finite q => (q < inject_Z 1 \/ inject_Z 10 < q)%Q
  end.

(** [z.number()] with its chained checks [.int()], [.min(m)], [.max(m)]. *)
Inductive NumberCheck := number_int | number_min (m : Z) | number_max (m : Z).

Definition run_number_check (n : number) (c : NumberCheck) : list Issue :=
  match c with
  | number_int => if Number_isInteger n then [] else [not_integer]
  | number_min m => if number_ltb n m then [too_small] else []
  | number_max m => if number_gtb n m then [too_big] else []
  end.

Definition z_number (checks : list NumberCheck) : Parser number :=
  fun v =>
    match v with
    | RNumber NaN => inl [invalid_type]
    | RNumber n => check_result (flat_map (run_number_check n) checks) n
    | _ => inl [invalid_type]
    end.

(** [.default(d)]: an [undefined] input is replaced by [d] before the
    inner schema runs. *)
Definition z_default {A} (d : Raw) (inner : Parser A) : Parser A :=
  fun v => inner (match v with RUndefined => d | _ => v end).

(** [.optional()]: an [undefined] input is accepted as it is, and the
    inner schema, its default included, is not consulted. *)
Definition z_optional {A} (inner : Parser A) : Parser (option A) :=
  fun v =>
    match v with
    | RUndefined => inr None
    | _ => match inner v with inl e => inl e | inr a => inr (Some a) end
    end.

(** The integer a number that passed [.int()] stands for. *)
Definition integer_value (n : number) : Z :=
  match n with
  | Finite q => Qfloor q
  | _ => 0
  end.

Definition issues_of {A} (field : string) (r : ParseResult A)
  : list (string * Issue) :=
  match r with
  | inl issues => map (pair field) issues
  | inr _ => []
  end.

(** ** The tool's operations *)

Section Tool.

(** The collaborators the tool is wired to.
    - [getHeaders k]: the header set [new HeaderGenerator().getHeaders()]
      yields on its [k]-th draw.
    - [rawDDGSearch c w]: the backend's answer to the call [c] in the
      world [w]: the [results] array, or what it throws.
    - [stripHtml s]: [stripHtml(s).result] of the sanitising library.
    - [StringToNumber s]: the runtime's [Number(s)] on a string. *)
Variable getHeaders : nat -> gmap string string.
Variable rawDDGSearch : Call -> World -> Error + list SearchToolResult.
Variable stripHtml : string -> string.
Variable StringToNumber : string -> number.

(** [Number(v)], the coercion [z.coerce] applies. *)
Definition Number (v : Raw) : number :=
  match v with
  | RUndefined => NaN
  | RNull => Finite 0
  | RBool b => if b then Finite 1 else Finite 0
  | RNumber n => n
  | RString s => StringToNumber s
  end.

(** [Number(v)] is the integer [z]. *)
Definition Number_is (v : Raw) (z : Z) : Prop :=
  exists q, Number v = Finite q /\ (q == inject_Z z)%Q.

(** [z.coerce.number()] with checks: the input is first replaced by
    [Number(input)]. *)
Definition z_coerce_number (checks : list NumberCheck) : Parser number :=
  fun v => z_number checks (RNumber (Number v)).

(** The schema of [query]: [z.string().min(1).max(128)]. *)
Definition query_schema : Parser string :=
  z_string [string_min 1; string_max 128].

(** The schema of [page]:
    [z.coerce.number().int().min(1).max(10).default(1).optional()]. *)
Definition page_schema : Parser (option number) :=
  z_optional
    (z_default (RNumber (Finite 1))
       (z_coerce_number [number_int; number_min 1; number_max 10])).

(** [inputSchema()], applied to a raw input object: [z.object] reads the
    two declared keys (an absent key reads as [undefined]), drops every
    other key and reports the issues of both fields. *)
Definition inputSchema (input : gmap string Raw) : Error + ToolInput :=
  let q := query_schema (default RUndefined (input !! "query")) in
  let p := page_schema (default RUndefined (input !! "page")) in
  match q, p with
  | inr q', inr p' => inr {| query := q'; page := integer_value <$> p' |}
  | _, _ => inl (ValidationError (issues_of "query" q ++ issues_of "page" p))
  end.

(** *** The pieces of [_run] *)

(** Lines 125-129: the generated header set, with the bearer header
    when an API key is configured. *)
Definition run_headers (this : DuckDuckGoSearchTool)
    (generated : gmap string string) : gmap string string :=
  if truthy (apiKey (options this))
  then <["Authorization" := "Bearer " +:+ default "" (apiKey (options this))]>
         generated
  else generated.

(** Lines 131-138: [{...this.options?.httpClientOptions,
    ...options?.httpClientOptions}], then the proxy agent.  Here the
    agent is taken as built: these are the options of a tool whose proxy
    URL the runtime can parse.  [new HttpsProxyAgent(url)] throws on a
    URL it cannot parse; [build_httpClientOptions] below has that
    failure. *)
Definition run_httpClientOptions (this : DuckDuckGoSearchTool)
    (opts : option DuckDuckGoSearchToolRunOptions) : Options :=
  let merged :=
    spread (opts ≫= r_httpClientOptions)
    ∪ spread (httpClientOptions (options this)) in
  if truthy (http_proxy_url (options this))
  then <["agent" :=
           VAgent (HttpsProxyAgent (default "" (http_proxy_url (options this))))]>
         merged
  else merged.

(** Lines 142-147: the search options of the call. *)
Definition run_searchOptions (this : DuckDuckGoSearchTool) (page : Z)
    (opts : option DuckDuckGoSearchToolRunOptions) : Options :=
  spread (opts ≫= r_search)
  ∪ (spread (search (options this))
     ∪ {[ "offset" := VNum (maxResultsPerPage (options this) * (page - 1));
          "safeSearch" := VSafeSearch MODERATE ]}).

(** Lines 148-152: the transport options of the call. *)
Definition run_transportOptions (headers : gmap string string)
    (http : Options) : Options :=
  http
  ∪ {[ "headers" := VHeaders headers;
       "user_agent" := from_option VStr VUndefined (headers !! "user-agent") ]}.

(** The call [_run] makes once the header set [generated] is drawn. *)
Definition run_call (this : DuckDuckGoSearchTool) (input : ToolInput)
    (opts : option DuckDuckGoSearchToolRunOptions)
    (generated : gmap string string) : Call :=
  {| call_query := query input;
     call_search := run_searchOptions this (default 1 (page input)) opts;
     call_transport :=
       run_transportOptions (run_headers this generated)
                            (run_httpClientOptions this opts);
     call_client := client this |}.

(** Lines 160-164: the normalisation of one result. *)
Definition normalize (result : SearchToolResult) : SearchToolResult :=
  {| title := stripHtml (title result);
     description := stripHtml (description result);
     url := url result |}.

(** *** Effects *)

(** The world once one more header set has been drawn. *)
Definition after_draw (w : World) : World :=
  {| backend_calls := backend_calls w;
     headers_drawn := S (headers_drawn w) |}.

Definition draw_headers : M (gmap string string) :=
  fun w => (inr (getHeaders (headers_drawn w)), after_draw w).

(** Awaiting [this.client(...)]: with or without the gate the backend
    is called once with these arguments (the gate only delays). *)
Definition await_client (c : Call) : M (list SearchToolResult) :=
  fun w =>
    (rawDDGSearch c w,
     {| backend_calls := backend_calls w ++ [c];
        headers_drawn := headers_drawn w |}).

(** *** [_run] *)

(** [_run] for a tool whose proxy agent can be built (no proxy URL, an
    empty one, or one the runtime can parse).  [_run_checked] below adds
    the one failure that can precede the call, and agrees with [_run]
    whenever the agent can be built. *)
Definition _run (this : DuckDuckGoSearchTool) (input : ToolInput)
    (opts : option DuckDuckGoSearchToolRunOptions)
  : M DuckDuckGoSearchToolOutput :=
  generated <- draw_headers ;;
  raw <- await_client (run_call this input opts generated) ;;
  kept <- lift (truncate (maxResultsPerPage (options this)) raw) ;;
  ret {| results := map normalize kept |}.

(** The call a [_run] started in world [w] makes, and the backend's
    answer to it. *)
Definition call_of_run (this : DuckDuckGoSearchTool) (input : ToolInput)
    (opts : option DuckDuckGoSearchToolRunOptions) (w : World) : Call :=
  run_call this input opts (getHeaders (headers_drawn w)).

Definition backend_response (this : DuckDuckGoSearchTool) (input : ToolInput)
    (opts : option DuckDuckGoSearchToolRunOptions) (w : World)
  : Error + list SearchToolResult :=
  rawDDGSearch (call_of_run this input opts w) (after_draw w).

(** Modelled from the spec: the [run] operation of the base class
    [Tool], whose source is not part of the files at hand.  The spec's
    first step of [run] is to validate the input with the schema and to
    reject early on failure; the remaining steps are [_run]. *)
Definition run (this : DuckDuckGoSearchTool) (input : gmap string Raw)
    (opts : option DuckDuckGoSearchToolRunOptions)
  : M DuckDuckGoSearchToolOutput :=
  parsed <- lift (inputSchema input) ;;
  _run this parsed opts.

End Tool.

(** ** The construction of the proxy agent *)

Section ProxyAgent.

(** The collaborators of [_run], and [URL_canParse s]: whether the
    runtime's [new URL(s)], on which [new HttpsProxyAgent(s)] relies,
    accepts the string. *)
Variable getHeaders : nat -> gmap string string.
Variable rawDDGSearch : Call -> World -> Error + list SearchToolResult.
Variable stripHtml : string -> string.
Variable URL_canParse : string -> bool.

(** [new HttpsProxyAgent(proxy)]: a [TypeError] on a URL that does not
    parse. *)
Definition new_HttpsProxyAgent (proxy : string) : Error + Agent :=
  if URL_canParse proxy then inr (HttpsProxyAgent proxy) else inl TypeError.

(** Lines 131-138, the agent's construction included. *)
Definition build_httpClientOptions (this : DuckDuckGoSearchTool)
    (opts : option DuckDuckGoSearchToolRunOptions) : Error + Options :=
  let merged :=
    spread (opts ≫= r_httpClientOptions)
    ∪ spread (httpClientOptions (options this)) in
  if truthy (http_proxy_url (options this))
  then match new_HttpsProxyAgent (default "" (http_proxy_url (options this))) with
       | inl e => inl e
       | inr agent => inr (<["agent" := VAgent agent]> merged)
       end
  else inr merged.

(** Whether line 137 goes through: no agent is asked for, or the URL
    parses. *)
Definition agent_buildable (this : DuckDuckGoSearchTool) : bool :=
  negb (truthy (http_proxy_url (options this)))
  || URL_canParse (default "" (http_proxy_url (options this))).

(** [_run] with every step of lines 125-165 that can throw: the header
    set is drawn, the HTTP client options are built, and only then is
    the client called. *)
Definition _run_checked (this : DuckDuckGoSearchTool) (input : ToolInput)
    (opts : option DuckDuckGoSearchToolRunOptions)
  : M DuckDuckGoSearchToolOutput :=
  generated <- draw_headers getHeaders ;;
  http <- lift (build_httpClientOptions this opts) ;;
  raw <- await_client rawDDGSearch
           {| call_query := query input;
              call_search := run_searchOptions this (default 1 (page input)) opts;
              call_transport :=
                run_transportOptions (run_headers this generated) http;
              call_client := client this |} ;;
  kept <- lift (truncate (maxResultsPerPage (options this)) raw) ;;
  ret {| results := map (normalize stripHtml) kept |}.

End ProxyAgent.

(** ** The sanitiser *)




(** ** Concrete collaborators for the examples *)

(** A header generator that always yields the same two headers. *)
Definition fixedHeaders (k : nat) : gmap string string :=
  {[ "user-agent" := "Mozilla/5.0"; "accept" := "text/html" ]}.

(** A backend that answers every call with the same three results. *)
Definition threeResults : list SearchToolResult :=
  [ {| title := "<b>Foo</b>"; description := "first <i>hit</i>";
       url := "https://a.example/?q=<b>" |};
    {| title := "Bar"; description := "second hit"; url := "https://b.example" |};
    {| title := "Baz"; description := "third hit"; url := "https://c.example" |} ].

Definition fixedBackend (c : Call) (w : World) : Error + list SearchToolResult :=
  inr threeResults.

(** A sanitiser that drops every [<...>] run. *)
Fixpoint dropTags (inside : bool) (s : string) : string :=
  match s with
  | EmptyString => EmptyString
  | String c rest =>
      if inside
      then dropTags (negb (Ascii.eqb c ">"%char)) rest
      else if Ascii.eqb c "<"%char then dropTags true rest
           else String c (dropTags false rest)
  end.

(** A string-to-number conversion that agrees with the runtime's on the
    empty string and on unsigned decimal integer literals, and answers
    [NaN] elsewhere. *)
Fixpoint decimalDigits (s : string) (acc : Z) : option Z :=
  match s with
  | EmptyString => Some acc
  | String c rest =>
      let d := Z.of_nat (Ascii.nat_of_ascii c) - 48 in
      if (0 <=? d) && (d <=? 9) then decimalDigits rest (10 * acc + d) else None
  end.

Definition decimalToNumber (s : string) : number :=
  match decimalDigits s 0 with
  | Some z => Finite (inject_Z z)
  | None => NaN
  end.

Definition emptyWorld : World := {| backend_calls := []; headers_drawn := 0 |}.


(** A tool whose page holds two results, and an input for it. *)
Definition twoPerPage : DuckDuckGoSearchTool :=
  constructor {| p_search := None; p_throttle := ThrottleFalse;
                 p_httpClientOptions := None; p_maxResultsPerPage := Some 2;
                 p_apiKey := Some "k3y"; p_http_proxy_url := None |}.

Definition secondPage : ToolInput := {| query := "rocq"; page := Some 2 |}.

(** A tool whose configured search options carry an offset of their own. *)
Definition offsetTool : DuckDuckGoSearchTool :=
  constructor {| p_search := Some {[ "offset" := VNum 100 ]};
                 p_throttle := ThrottleAbsent;
                 p_httpClientOptions := None; p_maxResultsPerPage := None;
                 p_apiKey := None; p_http_proxy_url := None |}.

(** A tool behind a proxy, with an API key and a configured timeout. *)
Definition proxyTool : DuckDuckGoSearchTool :=
  constructor {| p_search := None; p_throttle := ThrottleAbsent;
                 p_httpClientOptions :=
                   Some {[ "open_timeout" := VNum 5000; "follow_max" := VNum 3 ]};
                 p_maxResultsPerPage := None;
                 p_apiKey := Some "k3y";
                 p_http_proxy_url := Some "http://proxy.example:8080" |}.

(** Per-call options that bring an agent and a timeout. *)
Definition agentRunOptions : DuckDuckGoSearchToolRunOptions :=
  {| r_search := None;
     r_httpClientOptions :=
       Some {[ "agent" := VAgent (CustomAgent 7); "open_timeout" := VNum 100 ]} |}.

(** Per-call options that bring a header set and a user agent. *)
Definition headerRunOptions : DuckDuckGoSearchToolRunOptions :=
  {| r_search := None;
     r_httpClientOptions :=
       Some {[ "headers" := VHeaders {[ "accept" := "application/json" ]};
               "user_agent" := VStr "curl/8" ]} |}.

(** A construction argument asking for pages of no results. *)
Definition zeroPerPage : PartialToolOptions :=
  {| p_search := None; p_throttle := ThrottleAbsent;
     p_httpClientOptions := None; p_maxResultsPerPage := Some 0;
     p_apiKey := None; p_http_proxy_url := None |}.

(** The gate built when the configuration says nothing about throttling. *)
Definition defaultGate : ThrottleGate :=
  {| g_limit := 1; g_interval := 3000; g_strict := None |}.

(** Raw inputs: page eleven, page three given as a string, no page. *)
Definition pageEleven : gmap string Raw :=
  {[ "query" := RString "rocq"; "page" := RNumber (Finite 11) ]}.

Definition pageThreeString : gmap string Raw :=
  {[ "query" := RString "rocq"; "page" := RString "3" ]}.

Definition noPage : gmap string Raw := {[ "query" := RString "rocq" ]}.

(** An output holding the three results unsanitised, and an empty one. *)
Definition rawOutput : DuckDuckGoSearchToolOutput := {| results := threeResults |}.

Definition freshOutput : DuckDuckGoSearchToolOutput := {| results := [] |}.

(** A backend that fails on every call. *)
Definition failingBackend (c : Call) (w : World) : Error + list SearchToolResult :=
  inl (BackendFailure "anomaly").

(** A header generator whose header sets lack the user agent. *)
Definition bareHeaders (k : nat) : gmap string string :=
  {[ "accept" := "text/html" ]}.

(** A tool constructed with a negative number of results per page. *)
Definition negativePerPage : DuckDuckGoSearchTool :=
  constructor {| p_search := None; p_throttle := ThrottleFalse;
                 p_httpClientOptions := None; p_maxResultsPerPage := Some (-1);
                 p_apiKey := None; p_http_proxy_url := None |}.

(** Raw inputs: a numeric query, and the page given as [true]. *)
Definition numericQuery : gmap string Raw :=
  {[ "query" := RNumber (Finite 42) ]}.

Definition pageTrue : gmap string Raw :=
  {[ "query" := RString "rocq"; "page" := RBool true ]}.

(** Run options that are present but empty. *)
Definition emptyRunOptions : DuckDuckGoSearchToolRunOptions :=
  {| r_search := None; r_httpClientOptions := None |}.

(** A URL parser for the examples: it accepts what starts with an HTTP
    scheme. *)
Definition httpSchemeOnly (s : string) : bool :=
  String.prefix "http://" s || String.prefix "https://" s.

(** A tool whose proxy URL is no URL. *)
Definition badProxyTool : DuckDuckGoSearchTool :=
  constructor {| p_search := None; p_throttle := ThrottleFalse;
                 p_httpClientOptions := None; p_maxResultsPerPage := None;
                 p_apiKey := None; p_http_proxy_url := Some "not a url" |}.

(** * Properties *)

(** ** Truncation *)

Lemma truncate_nonneg {A} (cap : Z) (a : list A) :
  0 <= cap -> truncate cap a = inr (take (Z.to_nat cap) a).
Proof.
  intros Hcap. unfold truncate, set_length.
  destruct (Z.gtb_spec (Z.of_nat (length a)) cap) as [Hlong | Hshort].
  - destruct (Z.ltb_spec cap 0); [lia | reflexivity].
  - rewrite take_ge; [reflexivity | lia].
Qed.

Lemma truncate_long {A} (cap : Z) (a kept : list A) :
  truncate cap a = inr kept -> cap < Z.of_nat (length a) ->
  kept = take (Z.to_nat cap) a /\ Z.of_nat (length kept) = cap.
Proof.
  unfold truncate, set_length. intros Hk Hlong.
  destruct (Z.gtb_spec (Z.of_nat (length a)) cap); [| lia].
  destruct (Z.ltb_spec cap 0); [discriminate |].
  injection Hk as <-. split; [reflexivity |].
  rewrite length_take. lia.
Qed.

Lemma truncate_short {A} (cap : Z) (a kept : list A) :
  truncate cap a = inr kept -> Z.of_nat (length a) <= cap -> kept = a.
Proof.
  unfold truncate. intros Hk Hshort.
  destruct (Z.gtb_spec (Z.of_nat (length a)) cap); [lia |].
  congruence.
Qed.

(** ** Snapshots *)

(** C3. [createSnapshot] returns exactly the output's results under
    [results]; loading that snapshot into any other output instance
    gives the same results again; and loading copies the snapshot's
    results as they are, whatever they contain. *)
Theorem C3_snapshot_roundtrip (this fresh : DuckDuckGoSearchToolOutput)
    (snapshot : OutputSnapshot) :
  createSnapshot this = {| snapshot_results := results this |}
  /\ results (loadSnapshot fresh (createSnapshot this)) = results this
  /\ loadSnapshot fresh (createSnapshot this) = this
  /\ results (loadSnapshot fresh snapshot) = snapshot_results snapshot.
Proof.
  destruct this as [rs]. repeat split.
Qed.

(** ** Construction *)

(** C4 (amended). The client is the raw backend function exactly when
    throttling is switched off with [throttle: false]; when the throttle
    policy is absent the raw function is wrapped by a gate of one call
    per 3000 ms, and a given policy is completed with these defaults. *)
Theorem C4_createClient_amended (o : PartialToolOptions) :
  (p_throttle o = ThrottleFalse <-> client (constructor o) = rawDDGSearch_client)
  /\ (p_throttle o = ThrottleAbsent ->
      client (constructor o) = pThrottle_client defaultGate)
  /\ (forall t, p_throttle o = ThrottleWith t ->
      client (constructor o) =
      pThrottle_client {| g_limit := default 1 (limit t);
                          g_interval := default 3000 (interval t);
                          g_strict := strict t |})
  /\ client (tool_loadSnapshot (options (constructor o))) = client (constructor o).
Proof.
  destruct o as [s [| | t] h m a p]; cbn.
  all: split; [split; intros H; (discriminate H || reflexivity) |].
  all: split; [intros H; (discriminate H || reflexivity) |].
  all: split; [| reflexivity].
  all: intros t' H; try discriminate H.
  injection H as ->. reflexivity.
Qed.

(** C9 (amended). The results-per-page cap of a constructed tool is 15
    when none is provided, and the provided number, taken over as it
    is, otherwise; so the cap is positive exactly when no cap or a
    positive cap is provided. *)
Theorem C9_cap_default_amended (o : PartialToolOptions) :
  let cap := maxResultsPerPage (options (constructor o)) in
  (p_maxResultsPerPage o = None -> cap = 15)
  /\ (forall n, p_maxResultsPerPage o = Some n -> cap = n)
  /\ (0 < cap <->
      p_maxResultsPerPage o = None
      \/ exists n, p_maxResultsPerPage o = Some n /\ 0 < n).
Proof.
  cbn. destruct (p_maxResultsPerPage o) as [n |]; cbn.
  - split; [discriminate |]. split; [intros ? [= ->]; reflexivity |].
    split.
    + intros Hn. right. eauto.
    + intros [H | (n' & [= ->] & Hn)]; [discriminate | exact Hn].
  - split; [reflexivity |]. split; [discriminate |].
    split; [auto | lia].
Qed.

(** ** Validation *)

Lemma check_result_inr {A} (issues : list Issue) (a b : A) :
  check_result issues a = inr b -> issues = [] /\ a = b.
Proof. destruct issues; cbn; [intros [= ->]; auto | discriminate]. Qed.

Lemma check_result_inl {A} (issues e : list Issue) (a : A) :
  check_result issues a = inl e -> exists i rest, e = i :: rest.
Proof. destruct issues; cbn; [discriminate | intros [= <-]; eauto]. Qed.

(** The three checks of the page schema pass exactly on the integers
    from 1 to 10. *)
Lemma page_checks_pass (n n' : number) :
  z_number [number_int; number_min 1; number_max 10] (RNumber n) = inr n'
  <-> n' = n /\ exists q, n = Finite q /\ (q == inject_Z (Qfloor q))%Q
                          /\ 1 <= Qfloor q <= 10.
Proof.
  split.
  - destruct n as [| neg | q]; [discriminate | |].
    + cbn. discriminate.
    + cbn [z_number flat_map run_number_check Number_isInteger number_ltb
           number_gtb app].
      destruct (Qeq_bool (inject_Z (Qfloor q)) q) eqn:Hint;
        destruct (Qle_bool (inject_Z 1) q) eqn:Hmin;
        destruct (Qle_bool q (inject_Z 10)) eqn:Hmax; cbn; try discriminate.
      intros [= <-]. split; [reflexivity |]. exists q.
      apply Qeq_bool_iff in Hint. apply Qle_bool_iff in Hmin, Hmax.
      split; [reflexivity |]. split; [symmetry; exact Hint |].
      rewrite <- Hint in Hmin, Hmax.
      rewrite <- Zle_Qle in Hmin, Hmax. lia.
  - intros (-> & q & -> & Hint & Hrange).
    cbn [z_number flat_map run_number_check Number_isInteger number_ltb
         number_gtb app].
    assert (H1 : Qeq_bool (inject_Z (Qfloor q)) q = true)
      by (apply Qeq_bool_iff; symmetry; exact Hint).
    assert (H2 : Qle_bool (inject_Z 1) q = true)
      by (apply Qle_bool_iff; rewrite Hint; rewrite <- Zle_Qle; lia).
    assert (H3 : Qle_bool q (inject_Z 10) = true)
      by (apply Qle_bool_iff; rewrite Hint; rewrite <- Zle_Qle; lia).
    rewrite H1, H2, H3. reflexivity.
Qed.

Lemma z_number_inl (checks : list NumberCheck) (v : Raw) (e : list Issue) :
  z_number checks v = inl e -> exists i rest, e = i :: rest.
Proof.
  destruct v as [| | b | [| neg | q] | s]; cbn [z_number];
    try (intros [= <-]; eauto; fail).
  all: apply check_result_inl.
Qed.

(** A number below 1 or above 10 fails them. *)
Lemma page_checks_fail_outside (n : number) :
  outside_page_domain n ->
  exists i rest,
    z_number [number_int; number_min 1; number_max 10] (RNumber n)
    = inl (i :: rest).
Proof.
  intros Hout.
  destruct (z_number _ (RNumber n)) as [e | n'] eqn:Hz.
  - destruct (z_number_inl _ _ _ Hz) as (i & rest & ->). eauto.
  - apply page_checks_pass in Hz.
    destruct Hz as (_ & q & -> & Hint & Hrange). exfalso.
    destruct Hout as [Hlt | Hgt].
    + rewrite Hint in Hlt. apply Qlt_not_le in Hlt. apply Hlt. rewrite <- Zle_Qle. lia.
    + rewrite Hint in Hgt. apply Qlt_not_le in Hgt. apply Hgt. rewrite <- Zle_Qle. lia.
Qed.

Lemma query_schema_pass (s : string) :
  (1 <= String.length s <= 128)%nat -> query_schema (RString s) = inr s.
Proof.
  intros [Hmin Hmax]. unfold query_schema, z_string.
  cbn [flat_map run_string_check app].
  destruct (Nat.ltb_spec (String.length s) 1); [lia |].
  destruct (Nat.ltb_spec 128 (String.length s)); [lia |].
  reflexivity.
Qed.

Lemma query_schema_fail (s : string) :
  (String.length s < 1 \/ 128 < String.length s)%nat ->
  exists i rest, query_schema (RString s) = inl (i :: rest).
Proof.
  intros Hout. unfold query_schema, z_string.
  cbn [flat_map run_string_check app].
  destruct (Nat.ltb_spec (String.length s) 1);
    destruct (Nat.ltb_spec 128 (String.length s)); cbn; eauto.
  lia.
Qed.

Section Properties.

Variable getHeaders : nat -> gmap string string.
Variable rawDDGSearch : Call -> World -> Error + list SearchToolResult.
Variable stripHtml : string -> string.
Variable StringToNumber : string -> number.

(** [_run] spelled out: one header draw, one backend call, then the
    truncation and the normalisation. *)
Lemma _run_eq this input opts w :
  _run getHeaders rawDDGSearch stripHtml this input opts w =
  let w' := {| backend_calls :=
                 backend_calls w ++ [call_of_run getHeaders this input opts w];
               headers_drawn := S (headers_drawn w) |} in
  match backend_response getHeaders rawDDGSearch this input opts w with
  | inl e => (inl e, w')
  | inr raw =>
      match truncate (maxResultsPerPage (options this)) raw with
      | inl e => (inl e, w')
      | inr kept => (inr {| results := map (normalize stripHtml) kept |}, w')
      end
  end.
Proof.
  unfold _run, bind, draw_headers, await_client, backend_response, call_of_run.
  cbn. destruct (rawDDGSearch _ _) as [e | raw]; [reflexivity |].
  unfold lift. destruct (truncate _ raw); reflexivity.
Qed.

(** Whatever the backend answers, [_run] makes exactly one call. *)
Lemma _run_calls this input opts w :
  backend_calls (_run getHeaders rawDDGSearch stripHtml this input opts w).2 =
  (backend_calls w ++ [call_of_run getHeaders this input opts w])%list.
Proof.
  rewrite _run_eq. cbn.
  destruct (backend_response _ _ _ _ _ _); [reflexivity |].
  destruct (truncate _ _); reflexivity.
Qed.

(** C1. Given the backend's answer [rs] and the cap [maxResultsPerPage]:
    a run that returns an output returns exactly [cap] results, the
    first [cap] of [rs] in their order, when [rs] is longer than the
    cap, and as many results as [rs] has when it is not; and with a
    cap that is not negative the run does return an output. *)
Theorem C1_truncation this input opts w rs :
  backend_response getHeaders rawDDGSearch this input opts w = inr rs ->
  let cap := maxResultsPerPage (options this) in
  (0 <= cap ->
   exists out w',
     _run getHeaders rawDDGSearch stripHtml this input opts w = (inr out, w'))
  /\
  (forall out w',
     _run getHeaders rawDDGSearch stripHtml this input opts w = (inr out, w') ->
     (cap < Z.of_nat (length rs) ->
      results out = map (normalize stripHtml) (take (Z.to_nat cap) rs)
      /\ Z.of_nat (length (results out)) = cap)
     /\
     (Z.of_nat (length rs) <= cap ->
      results out = map (normalize stripHtml) rs
      /\ length (results out) = length rs)).
Proof.
  intros Hresp cap. rewrite _run_eq, Hresp. cbn zeta. fold cap. split.
  - intros Hcap. rewrite (truncate_nonneg cap rs Hcap). eauto.
  - intros out w' Hrun.
    destruct (truncate cap rs) as [e | kept] eqn:Hk; [discriminate |].
    injection Hrun as <- _. cbn. split.
    + intros Hlong. destruct (truncate_long _ _ _ Hk Hlong) as [-> Hlen].
      split; [reflexivity |]. rewrite length_map. exact Hlen.
    + intros Hshort. rewrite (truncate_short _ _ _ Hk Hshort).
      split; [reflexivity | apply length_map].
Qed.

(** ** Option merging *)

(** A key of the merged search options: per-call first, then the
    configuration, then the two computed defaults. *)
Lemma run_searchOptions_lookup this p opts k :
  run_searchOptions this p opts !! k =
  match spread (opts ≫= r_search) !! k with
  | Some v => Some v
  | None =>
      match spread (search (options this)) !! k with
      | Some v => Some v
      | None =>
          ({[ "offset" := VNum (maxResultsPerPage (options this) * (p - 1));
              "safeSearch" := VSafeSearch MODERATE ]} : Options) !! k
      end
  end.
Proof.
  unfold run_searchOptions.
  destruct (spread (opts ≫= r_search) !! k) as [v |] eqn:Hper.
  - by apply lookup_union_Some_l.
  - rewrite lookup_union_r by done.
    destruct (spread (search (options this)) !! k) as [v |] eqn:Hcfg.
    + by apply lookup_union_Some_l.
    + by rewrite lookup_union_r.
Qed.

(** A key of the merged HTTP client options: the proxy agent when a
    proxy is configured and the key is [agent]; otherwise per-call
    first, then the configuration. *)
Lemma run_httpClientOptions_lookup this opts k :
  run_httpClientOptions this opts !! k =
  if truthy (http_proxy_url (options this)) && bool_decide (k = "agent")
  then Some (VAgent (HttpsProxyAgent (default "" (http_proxy_url (options this)))))
  else match spread (opts ≫= r_httpClientOptions) !! k with
       | Some v => Some v
       | None => spread (httpClientOptions (options this)) !! k
       end.
Proof.
  assert (Hmerge :
    (spread (opts ≫= r_httpClientOptions)
     ∪ spread (httpClientOptions (options this))) !! k =
    match spread (opts ≫= r_httpClientOptions) !! k with
    | Some v => Some v
    | None => spread (httpClientOptions (options this)) !! k
    end).
  { destruct (spread (opts ≫= r_httpClientOptions) !! k) as [v |] eqn:Hper.
    - by apply lookup_union_Some_l.
    - by rewrite lookup_union_r. }
  unfold run_httpClientOptions.
  destruct (truthy (http_proxy_url (options this))); cbn [andb]; [| exact Hmerge].
  case_bool_decide as Hk.
  - subst k. by rewrite lookup_insert_eq.
  - rewrite lookup_insert_ne by congruence. exact Hmerge.
Qed.

(** A key of the transport options: the merged HTTP client options
    first, then the two entries the tool computes. *)
Lemma run_transportOptions_lookup headers (http : Options) k :
  run_transportOptions headers http !! k =
  match http !! k with
  | Some v => Some v
  | None =>
      ({[ "headers" := VHeaders headers;
          "user_agent" :=
            from_option VStr VUndefined (headers !! "user-agent") ]}
         : Options) !! k
  end.
Proof.
  unfold run_transportOptions.
  destruct (http !! k) as [v |] eqn:Hk.
  - by apply lookup_union_Some_l.
  - by rewrite lookup_union_r.
Qed.

(** C2 (amended). For every valid page [p] in [1,10], the call [_run]
    makes carries the offset [maxResultsPerPage * (p - 1)] when neither
    the per-call nor the configured search options have an [offset]
    key; when one of them has, that value is sent instead, the
    per-call one first. *)
Theorem C2_offset_amended this input opts w p :
  page input = Some p -> 1 <= p <= 10 ->
  let c := call_of_run getHeaders this input opts w in
  backend_calls (_run getHeaders rawDDGSearch stripHtml this input opts w).2
  = (backend_calls w ++ [c])%list
  /\ call_search c !! "offset" =
     match spread (opts ≫= r_search) !! "offset" with
     | Some v => Some v
     | None =>
         match spread (search (options this)) !! "offset" with
         | Some v => Some v
         | None => Some (VNum (maxResultsPerPage (options this) * (p - 1)))
         end
     end.
Proof.
  intros Hp _ c. split; [apply _run_calls |].
  unfold c, call_of_run, run_call. cbn [call_search].
  rewrite Hp. cbn [from_option id]. rewrite run_searchOptions_lookup.
  destruct (spread (opts ≫= r_search) !! "offset"); [reflexivity |].
  destruct (spread (search (options this)) !! "offset"); [reflexivity |].
  by rewrite lookup_insert_eq.
Qed.

(** C8 (amended). The HTTP client options are the configuration's
    overlaid by the per-call ones, the per-call value winning on a key
    collision; when a non-empty proxy URL is configured the proxying
    agent is installed under [agent] after the merge, so it replaces an
    agent of the configuration or of the per-call options; every
    merged key reaches the transport options of the call. *)
Theorem C8_http_options_amended this input opts w k :
  let per := spread (opts ≫= r_httpClientOptions) in
  let cfg := spread (httpClientOptions (options this)) in
  let merged := run_httpClientOptions this opts in
  (truthy (http_proxy_url (options this)) = false \/ k <> "agent" ->
   merged !! k = match per !! k with Some v => Some v | None => cfg !! k end)
  /\ (forall proxy, http_proxy_url (options this) = Some proxy -> proxy <> "" ->
      merged !! "agent" = Some (VAgent (HttpsProxyAgent proxy)))
  /\ (forall v, merged !! k = Some v ->
      call_transport (call_of_run getHeaders this input opts w) !! k = Some v).
Proof.
  intros per cfg merged. unfold merged. repeat split.
  - intros Hk. rewrite run_httpClientOptions_lookup.
    destruct Hk as [-> | Hk]; [reflexivity |].
    rewrite bool_decide_eq_false_2 by exact Hk.
    by rewrite andb_false_r.
  - intros proxy Hproxy Hne. rewrite run_httpClientOptions_lookup, Hproxy.
    cbn. apply String.eqb_neq in Hne. rewrite Hne. reflexivity.
  - intros v Hv. unfold call_of_run, run_call. cbn [call_transport].
    rewrite run_transportOptions_lookup. by rewrite Hv.
Qed.

(** C10. The call [_run] makes takes [headers] and [user_agent] from the
    merged HTTP client options whenever these have the key, in place of
    the generated header set and of the user agent derived from it; a
    per-call [headers] value is therefore what is sent, and the
    [Authorization] header injected into the generated set goes only
    with that set. *)
Theorem C10_http_options_replace_headers this input opts w :
  let generated := getHeaders (headers_drawn w) in
  let c := call_of_run getHeaders this input opts w in
  let merged := run_httpClientOptions this opts in
  let per := spread (opts ≫= r_httpClientOptions) in
  backend_calls (_run getHeaders rawDDGSearch stripHtml this input opts w).2
  = (backend_calls w ++ [c])%list
  /\ (forall v, merged !! "headers" = Some v ->
      call_transport c !! "headers" = Some v)
  /\ (forall v, merged !! "user_agent" = Some v ->
      call_transport c !! "user_agent" = Some v)
  /\ (forall v, per !! "headers" = Some v ->
      call_transport c !! "headers" = Some v)
  /\ (forall h, per !! "headers" = Some (VHeaders h) ->
      h !! "Authorization" = None ->
      forall sent, call_transport c !! "headers" = Some (VHeaders sent) ->
                   sent !! "Authorization" = None)
  /\ (merged !! "headers" = None ->
      call_transport c !! "headers"
      = Some (VHeaders (run_headers this generated)))
  /\ (forall key, apiKey (options this) = Some key -> key <> "" ->
      run_headers this generated !! "Authorization"
      = Some ("Bearer " +:+ key)).
Proof.
  intros generated c merged per.
  assert (Hmerged : forall k v, merged !! k = Some v ->
                                call_transport c !! k = Some v).
  { intros k v Hv. unfold c, call_of_run, run_call. cbn [call_transport].
    rewrite run_transportOptions_lookup. fold merged. by rewrite Hv. }
  assert (Hper : forall v, per !! "headers" = Some v ->
                           merged !! "headers" = Some v).
  { intros v Hv. unfold merged. rewrite run_httpClientOptions_lookup.
    rewrite bool_decide_eq_false_2 by discriminate.
    rewrite andb_false_r. fold per. by rewrite Hv. }
  split; [apply _run_calls |].
  split; [intros v; apply Hmerged |].
  split; [intros v; apply Hmerged |].
  split; [intros v Hv; apply Hmerged, Hper, Hv |].
  split.
  { intros h Hh Hnone sent Hsent.
    rewrite (Hmerged _ _ (Hper _ Hh)) in Hsent. congruence. }
  split.
  { intros Hnone. unfold c, call_of_run, run_call. cbn [call_transport].
    rewrite run_transportOptions_lookup. fold merged. rewrite Hnone.
    by rewrite lookup_insert_eq. }
  intros key Hkey Hne. unfold run_headers. rewrite Hkey. cbn.
  apply String.eqb_neq in Hne. rewrite Hne. cbn.
  by rewrite lookup_insert_eq.
Qed.

(** ** Validation *)

Lemma page_schema_present (v : Raw) :
  v <> RUndefined ->
  page_schema StringToNumber v =
  match z_number [number_int; number_min 1; number_max 10]
                 (RNumber (Number StringToNumber v)) with
  | inl e => inl e
  | inr n => inr (Some n)
  end.
Proof. destruct v; [congruence | reflexivity ..]. Qed.

Lemma Number_is_present (v : Raw) (q : Q) :
  Number StringToNumber v = Finite q -> v <> RUndefined.
Proof. intros HN ->. discriminate HN. Qed.

Lemma outside_present (v : Raw) :
  outside_page_domain (Number StringToNumber v) -> v <> RUndefined.
Proof. intros Hout ->. exact Hout. Qed.

(** A failed validation ends [run] at once, in the world it began in. *)
Lemma run_rejected this input opts w e :
  inputSchema StringToNumber input = inl e ->
  run getHeaders rawDDGSearch stripHtml StringToNumber this input opts w
  = (inl e, w).
Proof. intros He. unfold run, bind, lift. rewrite He. reflexivity. Qed.

(** C5 (amended). With a valid query, the schema coerces [page] with
    [Number] and accepts it exactly when the coerced value is an
    integer from 1 to 10, which it yields; every other page that is
    present is rejected with an issue on [page], not clamped; an
    absent page is accepted and stays absent, and [_run] then works
    with page 1. *)
Theorem C5_page_schema_amended (input : gmap string Raw) (s : string) :
  input !! "query" = Some (RString s) ->
  (1 <= String.length s <= 128)%nat ->
  let v := default RUndefined (input !! "page") in
  (v = RUndefined ->
   inputSchema StringToNumber input = inr {| query := s; page := None |})
  /\ (forall this opts generated,
      run_call this {| query := s; page := None |} opts generated
      = run_call this {| query := s; page := Some 1 |} opts generated)
  /\ (forall z, Number_is StringToNumber v z -> 1 <= z <= 10 ->
      inputSchema StringToNumber input = inr {| query := s; page := Some z |})
  /\ (v <> RUndefined ->
      (forall z, Number_is StringToNumber v z -> ~ 1 <= z <= 10) ->
      exists i rest,
        inputSchema StringToNumber input
        = inl (ValidationError (("page", i) :: map (pair "page") rest))).
Proof.
  intros Hq Hlen v. unfold inputSchema. rewrite Hq. cbn [from_option id].
  rewrite (query_schema_pass s Hlen). fold v.
  split; [intros ->; reflexivity |].
  split; [reflexivity |].
  split.
  - intros z (q & HN & Hqz) Hrange.
    assert (Hfloor : Qfloor q = z) by (rewrite Hqz; apply Qfloor_Z).
    rewrite (page_schema_present v (Number_is_present v q HN)), HN.
    assert (Hpass : z_number [number_int; number_min 1; number_max 10]
                             (RNumber (Finite q)) = inr (Finite q)).
    { apply page_checks_pass. split; [reflexivity |]. exists q.
      rewrite Hfloor. auto. }
    rewrite Hpass. cbn. by rewrite Hfloor.
  - intros Hv Hnot. rewrite (page_schema_present v Hv).
    destruct (z_number _ _) as [e | n] eqn:Hz.
    + destruct (z_number_inl _ _ _ Hz) as (i & rest & ->). cbn. eauto.
    + apply page_checks_pass in Hz.
      destruct Hz as (_ & q & HN & Hint & Hrange).
      exfalso. apply (Hnot (Qfloor q)); [| exact Hrange].
      exists q. auto.
Qed.

(** C6. When the query is a string of fewer than 1 or more than 128
    characters, or the page coerces to a number below 1 or above 10,
    [run] fails with a validation error and leaves the world as it
    was: no header set drawn, no call to the backend. *)
Theorem C6_validation_before_calls this (input : gmap string Raw) opts w :
  (exists s, input !! "query" = Some (RString s)
             /\ (String.length s < 1 \/ 128 < String.length s)%nat)
  \/ outside_page_domain
       (Number StringToNumber (default RUndefined (input !! "page"))) ->
  exists issue issues,
    run getHeaders rawDDGSearch stripHtml StringToNumber this input opts w
    = (inl (ValidationError (issue :: issues)), w).
Proof.
  intros Hbad.
  enough (exists issue issues,
            inputSchema StringToNumber input
            = inl (ValidationError (issue :: issues)))
    as (issue & issues & He)
    by (exists issue, issues; apply run_rejected, He).
  unfold inputSchema. destruct Hbad as [(s & Hs & Hlen) | Hout].
  - rewrite Hs. cbn [from_option id].
    destruct (query_schema_fail s Hlen) as (i & rest & ->).
    destruct (page_schema _ _); cbn; eauto.
  - rewrite (page_schema_present _ (outside_present _ Hout)).
    destruct (page_checks_fail_outside _ Hout) as (i & rest & ->).
    destruct (query_schema _) as [[| i' rest'] | s]; cbn; eauto.
Qed.

End Properties.

(** With two results per page and a backend that answers with three, the
    run returns the first two, normalised, in their order. *)
Lemma C1_truncation_witness :
  backend_response fixedHeaders fixedBackend twoPerPage secondPage None emptyWorld
  = inr threeResults
  /\ exists out w',
      _run fixedHeaders fixedBackend (dropTags false) twoPerPage secondPage None
           emptyWorld = (inr out, w')
      /\ results out = map (normalize (dropTags false)) (take 2 threeResults).
Proof.
  split; [reflexivity |].
  destruct (C1_truncation fixedHeaders fixedBackend (dropTags false)
              twoPerPage secondPage None emptyWorld threeResults eq_refl)
    as [Hreturns Hshape].
  destruct (Hreturns ltac:(vm_compute; discriminate)) as (out & w' & Hrun).
  exists out, w'. split; [exact Hrun |].
  destruct (Hshape out w' Hrun) as [Hlong _].
  apply Hlong. vm_compute. reflexivity.
Defined.

(** On the second page of a tool with fifteen results per page and no
    offset in any search options, the offset sent is fifteen. *)
Lemma C2_offset_amended_witness :
  page secondPage = Some 2 /\ 1 <= 2 <= 10
  /\ call_search (call_of_run fixedHeaders (constructor empty_options)
                    secondPage None emptyWorld) !! "offset"
     = Some (VNum 15).
Proof.
  split; [reflexivity |]. split; [lia |].
  destruct (C2_offset_amended fixedHeaders fixedBackend (dropTags false)
              (constructor empty_options) secondPage None emptyWorld 2
              eq_refl ltac:(lia)) as [_ Hoffset].
  exact Hoffset.
Defined.

(** C2 as stated fails: with an [offset] among the configured search
    options, the second page of fifteen results is requested at offset
    100, not at 15. *)
Lemma C2_counterexample :
  page secondPage = Some 2 /\ 1 <= 2 <= 10
  /\ call_search (call_of_run fixedHeaders offsetTool secondPage None emptyWorld)
       !! "offset" = Some (VNum 100)
  /\ call_search (call_of_run fixedHeaders offsetTool secondPage None emptyWorld)
       !! "offset"
     <> Some (VNum (maxResultsPerPage (options offsetTool) * (2 - 1))).
Proof.
  split; [reflexivity |]. split; [lia |].
  split; [vm_compute; reflexivity | vm_compute; discriminate].
Qed.

(** Behind a proxy, a per-call timeout wins over the configured one. *)
Lemma C8_http_options_amended_witness :
  (truthy (http_proxy_url (options proxyTool)) = false \/ "open_timeout" <> "agent")
  /\ run_httpClientOptions proxyTool (Some agentRunOptions) !! "open_timeout"
     = Some (VNum 100).
Proof.
  assert (Hk : truthy (http_proxy_url (options proxyTool)) = false
               \/ "open_timeout" <> "agent") by (right; discriminate).
  split; [exact Hk |].
  destruct (C8_http_options_amended fixedHeaders proxyTool secondPage
              (Some agentRunOptions) emptyWorld "open_timeout") as [Hmerge _].
  exact (Hmerge Hk).
Defined.

(** C8 as stated fails: behind a proxy, the agent that the per-call
    options bring is replaced by the proxying agent. *)
Lemma C8_counterexample :
  spread (Some agentRunOptions ≫= r_httpClientOptions) !! "agent"
  = Some (VAgent (CustomAgent 7))
  /\ run_httpClientOptions proxyTool (Some agentRunOptions) !! "agent"
     = Some (VAgent (HttpsProxyAgent "http://proxy.example:8080"))
  /\ call_transport (call_of_run fixedHeaders proxyTool secondPage
                       (Some agentRunOptions) emptyWorld) !! "agent"
     <> Some (VAgent (CustomAgent 7)).
Proof.
  split; [vm_compute; reflexivity |].
  split; [vm_compute; reflexivity | vm_compute; discriminate].
Qed.

(** With an API key configured and a header set among the per-call
    options, the header set sent is the per-call one, without the
    [Authorization] header. *)
Lemma C10_http_options_replace_headers_witness :
  spread (Some headerRunOptions ≫= r_httpClientOptions) !! "headers"
  = Some (VHeaders {[ "accept" := "application/json" ]})
  /\ call_transport (call_of_run fixedHeaders proxyTool secondPage
                       (Some headerRunOptions) emptyWorld) !! "headers"
     = Some (VHeaders {[ "accept" := "application/json" ]})
  /\ run_headers proxyTool (fixedHeaders 0) !! "Authorization"
     = Some "Bearer k3y".
Proof.
  assert (Hper : spread (Some headerRunOptions ≫= r_httpClientOptions) !! "headers"
                 = Some (VHeaders {[ "accept" := "application/json" ]}))
    by (vm_compute; reflexivity).
  destruct (C10_http_options_replace_headers fixedHeaders fixedBackend
              (dropTags false) proxyTool secondPage (Some headerRunOptions)
              emptyWorld) as (_ & _ & _ & Hsent & _ & _ & Hbearer).
  split; [exact Hper |].
  split; [exact (Hsent _ Hper) |].
  apply (Hbearer "k3y"); [reflexivity | discriminate].
Defined.

(** ** Normalisation *)





(** The snapshot of the unsanitised output, loaded into an empty output,
    gives the unsanitised results back. *)
Lemma C3_snapshot_roundtrip_example :
  results (loadSnapshot freshOutput (createSnapshot rawOutput)) = threeResults.
Proof.
  destruct (C3_snapshot_roundtrip rawOutput freshOutput (createSnapshot rawOutput))
    as (_ & Hround & _).
  exact Hround.
Defined.

(** Without a throttle policy the tool is built with the default gate. *)
Lemma C4_createClient_amended_witness :
  p_throttle empty_options = ThrottleAbsent
  /\ client (constructor empty_options) = pThrottle_client defaultGate.
Proof.
  split; [reflexivity |].
  destruct (C4_createClient_amended empty_options) as (_ & Habsent & _).
  exact (Habsent eq_refl).
Defined.

(** C4 as stated fails: with no throttle policy in the configuration,
    the client is the gated one, not the raw backend function. *)
Lemma C4_counterexample :
  p_throttle empty_options = ThrottleAbsent
  /\ client (constructor empty_options) = pThrottle_client defaultGate
  /\ client (constructor empty_options) <> rawDDGSearch_client.
Proof.
  split; [reflexivity |]. split; [reflexivity | discriminate].
Qed.

(** Without a cap in the construction argument the cap is fifteen. *)
Lemma C9_cap_default_amended_witness :
  p_maxResultsPerPage empty_options = None
  /\ maxResultsPerPage (options (constructor empty_options)) = 15.
Proof.
  split; [reflexivity |].
  destruct (C9_cap_default_amended empty_options) as (Hdefault & _).
  exact (Hdefault eq_refl).
Defined.

(** C9 as stated fails: a cap of zero is accepted at construction. *)
Lemma C9_counterexample :
  maxResultsPerPage (options (constructor zeroPerPage)) = 0
  /\ ~ 0 < maxResultsPerPage (options (constructor zeroPerPage)).
Proof.
  split; [reflexivity | cbn; lia].
Qed.

(** The page given as the string ["3"] is accepted as the integer 3. *)
Lemma C5_page_schema_amended_witness :
  pageThreeString !! "query" = Some (RString "rocq")
  /\ (1 <= String.length "rocq" <= 128)%nat
  /\ inputSchema decimalToNumber pageThreeString
     = inr {| query := "rocq"; page := Some 3 |}.
Proof.
  assert (Hlen : (1 <= String.length "rocq" <= 128)%nat) by (cbn; lia).
  split; [reflexivity |]. split; [exact Hlen |].
  destruct (C5_page_schema_amended decimalToNumber pageThreeString "rocq"
              eq_refl Hlen) as (_ & _ & Haccept & _).
  apply Haccept; [| lia].
  exists (inject_Z 3). split; reflexivity.
Defined.

(** C5 as stated fails: page 11 is not clamped to 10, it is rejected. *)
Lemma C5_counterexample :
  inputSchema decimalToNumber pageEleven
  = inl (ValidationError [("page", too_big)])
  /\ inputSchema decimalToNumber pageEleven
     <> inr {| query := "rocq"; page := Some 10 |}.
Proof.
  split; [vm_compute; reflexivity | vm_compute; discriminate].
Qed.

(** Page 11 ends the run with a validation error in an untouched world. *)
Lemma C6_validation_before_calls_witness :
  outside_page_domain
    (Number decimalToNumber (default RUndefined (pageEleven !! "page")))
  /\ exists issue issues,
      run fixedHeaders fixedBackend (dropTags false) decimalToNumber
          twoPerPage pageEleven None emptyWorld
      = (inl (ValidationError (issue :: issues)), emptyWorld).
Proof.
  assert (Hout : outside_page_domain
                   (Number decimalToNumber
                      (default RUndefined (pageEleven !! "page"))))
    by (right; reflexivity).
  split; [exact Hout |].
  apply (C6_validation_before_calls fixedHeaders fixedBackend (dropTags false)
           decimalToNumber twoPerPage pageEleven None emptyWorld).
  right. exact Hout.
Defined.

(** * Further properties of the tool *)

(** ** Snapshots *)

(** X9. Taking the snapshot of an output into which a snapshot was
    loaded gives that snapshot back, and of two snapshots loaded one
    after the other only the second shows. *)
Theorem snapshot_load_then_create (this : DuckDuckGoSearchToolOutput)
    (s1 s2 : OutputSnapshot) :
  createSnapshot (loadSnapshot this s1) = s1
  /\ loadSnapshot (loadSnapshot this s1) s2 = loadSnapshot this s2.
Proof. destruct s1. split; reflexivity. Qed.

(** ** The schema *)

Lemma query_schema_inr (v : Raw) (s : string) :
  query_schema v = inr s ->
  v = RString s /\ (1 <= String.length s <= 128)%nat.
Proof.
  destruct v as [| | b | n | s']; try discriminate.
  unfold query_schema, z_string. cbn [flat_map run_string_check app].
  destruct (Nat.ltb_spec (String.length s') 1);
    destruct (Nat.ltb_spec 128 (String.length s')); cbn; try discriminate.
  intros [= ->]. split; [reflexivity | lia].
Qed.

Lemma default_undefined_string (o : option Raw) (s : string) :
  default RUndefined o = RString s <-> o = Some (RString s).
Proof.
  destruct o as [v |]; cbn; split; try congruence; discriminate.
Qed.

Section MoreProperties.

Variable getHeaders : nat -> gmap string string.
Variable rawDDGSearch : Call -> World -> Error + list SearchToolResult.
Variable stripHtml : string -> string.
Variable StringToNumber : string -> number.

(** What an accepted input tells about the raw input it came from. *)
Lemma inputSchema_inr (input : gmap string Raw) (ti : ToolInput) :
  inputSchema StringToNumber input = inr ti ->
  input !! "query" = Some (RString (query ti))
  /\ (1 <= String.length (query ti) <= 128)%nat
  /\ match page ti with
     | None => default RUndefined (input !! "page") = RUndefined
     | Some z =>
         Number_is StringToNumber (default RUndefined (input !! "page")) z
         /\ 1 <= z <= 10
     end.
Proof.
  unfold inputSchema.
  destruct (query_schema _) as [eq | s] eqn:Hq;
    [destruct (page_schema _ _); discriminate |].
  destruct (page_schema _ _) as [ep | p] eqn:Hp; [discriminate |].
  intros [= <-]. cbn [query page].
  apply query_schema_inr in Hq. destruct Hq as [Hraw Hlen].
  apply default_undefined_string in Hraw.
  split; [exact Hraw |]. split; [exact Hlen |].
  remember (default RUndefined (input !! "page")) as v eqn:Hdef.
  assert (Hcase : v = RUndefined \/ v <> RUndefined)
    by (destruct v; [left; reflexivity | right; discriminate ..]).
  destruct Hcase as [-> | Hv].
  - injection Hp as <-. reflexivity.
  - rewrite (page_schema_present StringToNumber _ Hv) in Hp.
    destruct (z_number _ _) as [e | n] eqn:Hz; [discriminate |].
    injection Hp as <-. apply page_checks_pass in Hz.
    destruct Hz as (-> & q & HN & Hint & Hrange).
    rewrite HN. cbn. split; [| exact Hrange].
    exists q. auto.
Qed.

(** X6. The schema accepts a raw input with the result [ti] exactly when
    the raw query is the string [query ti], of 1 to 128 characters, and
    either the raw page is absent and [page ti] is absent, or the raw
    page coerces to the integer [page ti], which lies between 1 and 10. *)
Theorem inputSchema_accepts_iff (input : gmap string Raw) (ti : ToolInput) :
  inputSchema StringToNumber input = inr ti <->
  input !! "query" = Some (RString (query ti))
  /\ (1 <= String.length (query ti) <= 128)%nat
  /\ match page ti with
     | None => default RUndefined (input !! "page") = RUndefined
     | Some z =>
         Number_is StringToNumber (default RUndefined (input !! "page")) z
         /\ 1 <= z <= 10
     end.
Proof.
  split; [apply inputSchema_inr |].
  destruct ti as [s p]. cbn [query page]. intros (Hq & Hlen & Hp).
  unfold inputSchema. rewrite Hq. cbn [from_option id].
  rewrite (query_schema_pass s Hlen).
  destruct p as [z |].
  - destruct Hp as [(q & HN & Hqz) Hrange].
    assert (Hfloor : Qfloor q = z) by (rewrite Hqz; apply Qfloor_Z).
    rewrite (page_schema_present StringToNumber _
               (Number_is_present StringToNumber _ q HN)), HN.
    assert (Hpass : z_number [number_int; number_min 1; number_max 10]
                             (RNumber (Finite q)) = inr (Finite q)).
    { apply page_checks_pass. split; [reflexivity |]. exists q.
      rewrite Hfloor. auto. }
    rewrite Hpass. cbn. by rewrite Hfloor.
  - rewrite Hp. reflexivity.
Qed.

(** X7. The query is not coerced: a raw input whose query is missing or
    is anything but a string is rejected, and the first issue reported
    is a type issue on [query]. *)
Theorem inputSchema_query_not_coerced (input : gmap string Raw) :
  (forall s, input !! "query" <> Some (RString s)) ->
  exists rest,
    inputSchema StringToNumber input
    = inl (ValidationError (("query", invalid_type) :: rest)).
Proof.
  intros Hq. unfold inputSchema.
  destruct (input !! "query") as [[| | b | n | s] |] eqn:Hraw;
    cbn [from_option id query_schema z_string];
    try (destruct (page_schema _ _); cbn; eauto; fail).
  destruct (Hq s). reflexivity.
Qed.

(** X10. With a valid query, the page [true] is accepted as page 1, and
    the pages [null] and [false], which coerce to 0, are rejected as too
    small; [null] is not read as an absent page. *)
Theorem page_coercion_of_null_and_booleans (input : gmap string Raw)
    (s : string) :
  input !! "query" = Some (RString s) ->
  (1 <= String.length s <= 128)%nat ->
  (input !! "page" = Some (RBool true) ->
   inputSchema StringToNumber input = inr {| query := s; page := Some 1 |})
  /\ (input !! "page" = Some RNull \/ input !! "page" = Some (RBool false) ->
      inputSchema StringToNumber input
      = inl (ValidationError [("page", too_small)])).
Proof.
  intros Hq Hlen. unfold inputSchema. rewrite Hq. cbn [from_option id].
  rewrite (query_schema_pass s Hlen). split.
  - intros ->. reflexivity.
  - intros [-> | ->]; reflexivity.
Qed.

(** ** The effects of [_run] *)

(** The world a [_run] leaves: one more header set drawn, one more call. *)
Lemma _run_world this input opts w :
  (_run getHeaders rawDDGSearch stripHtml this input opts w).2
  = {| backend_calls :=
         backend_calls w ++ [call_of_run getHeaders this input opts w];
       headers_drawn := S (headers_drawn w) |}.
Proof.
  rewrite _run_eq. cbn zeta.
  destruct (backend_response _ _ _ _ _ _); [reflexivity |].
  destruct (truncate _ _); reflexivity.
Qed.

(** X2. When the backend answers: with a negative number of results per
    page the run fails with [RangeError], whatever the answer, its
    call already made; with zero results per page it returns no result. *)
Theorem _run_degenerate_cap this input opts w rs :
  backend_response getHeaders rawDDGSearch this input opts w = inr rs ->
  let r := _run getHeaders rawDDGSearch stripHtml this input opts w in
  (maxResultsPerPage (options this) < 0 ->
   r.1 = inl RangeError
   /\ backend_calls r.2
      = (backend_calls w ++ [call_of_run getHeaders this input opts w])%list)
  /\ (maxResultsPerPage (options this) = 0 -> r.1 = inr {| results := [] |}).
Proof.
  intros Hresp r. unfold r. split.
  - intros Hneg. split; [| apply _run_calls].
    rewrite _run_eq, Hresp. cbn zeta. unfold truncate, set_length.
    destruct (Z.gtb_spec (Z.of_nat (length rs))
                         (maxResultsPerPage (options this))); [| lia].
    destruct (Z.ltb_spec (maxResultsPerPage (options this)) 0); [| lia].
    reflexivity.
  - intros Hzero. rewrite _run_eq, Hresp. cbn zeta.
    rewrite truncate_nonneg by lia. rewrite Hzero. reflexivity.
Qed.

(** ** The options of the call *)

(** X3. Every key of the call's search options is taken from the
    per-call search options if they have it, else from the configured
    ones, else from the two computed entries; so the call always has an
    [offset] and a [safeSearch], the latter [MODERATE] unless one of the
    two option bags says otherwise, and no key from elsewhere. *)
Theorem call_search_precedence this input opts w k :
  let c := call_of_run getHeaders this input opts w in
  let per := spread (opts ≫= r_search) in
  let cfg := spread (search (options this)) in
  call_search c !! k =
  match per !! k with
  | Some v => Some v
  | None =>
      match cfg !! k with
      | Some v => Some v
      | None =>
          if decide (k = "offset")
          then Some (VNum (maxResultsPerPage (options this)
                           * (default 1 (page input) - 1)))
          else if decide (k = "safeSearch")
               then Some (VSafeSearch MODERATE)
               else None
      end
  end
  /\ (per !! "safeSearch" = None -> cfg !! "safeSearch" = None ->
      call_search c !! "safeSearch" = Some (VSafeSearch MODERATE))
  /\ dom (call_search c) = dom per ∪ dom cfg ∪ {[ "offset"; "safeSearch" ]}.
Proof.
  intros c per cfg. unfold c, call_of_run, run_call. cbn [call_search].
  split; [| split].
  - rewrite run_searchOptions_lookup. fold per cfg.
    destruct (per !! k); [reflexivity |].
    destruct (cfg !! k); [reflexivity |].
    repeat case_decide; subst; simplify_map_eq; reflexivity.
  - intros Hper Hcfg. rewrite run_searchOptions_lookup. fold per cfg.
    rewrite Hper, Hcfg. by simplify_map_eq.
  - unfold run_searchOptions. fold per cfg.
    rewrite !dom_union_L, dom_insert_L, dom_singleton_L.
    by rewrite (assoc_L (∪)).
Qed.

(** X5. The header set of a run is the generated one when no API key or
    an empty one is configured; with a non-empty key it is the generated
    one with [Authorization] set to the bearer value, every other
    header being left as generated. *)
Theorem run_headers_injection this (generated : gmap string string) :
  (apiKey (options this) = None \/ apiKey (options this) = Some "" ->
   run_headers this generated = generated)
  /\ (forall key, apiKey (options this) = Some key -> key <> "" ->
      run_headers this generated !! "Authorization" = Some ("Bearer " +:+ key)
      /\ forall k, k <> "Authorization" ->
                   run_headers this generated !! k = generated !! k).
Proof.
  unfold run_headers. split.
  - intros [-> | ->]; reflexivity.
  - intros key -> Hne. cbn. apply String.eqb_neq in Hne. rewrite Hne. cbn.
    split; [by rewrite lookup_insert_eq |].
    intros k Hk. by rewrite lookup_insert_ne.
Qed.

(** X4. The transport options of the call have the keys of the merged
    HTTP client options and the keys [headers] and [user_agent], and no
    other; unless the merged options bring their own, [user_agent] is
    the [user-agent] header of the generated set, or [undefined] when
    the set has none, and [headers] is the header set of the run. *)
Theorem call_transport_keys this input opts w :
  let generated := getHeaders (headers_drawn w) in
  let c := call_of_run getHeaders this input opts w in
  let merged := run_httpClientOptions this opts in
  dom (call_transport c) = dom merged ∪ {[ "headers"; "user_agent" ]}
  /\ (merged !! "user_agent" = None ->
      call_transport c !! "user_agent"
      = Some (from_option VStr VUndefined (generated !! "user-agent")))
  /\ (merged !! "headers" = None ->
      call_transport c !! "headers"
      = Some (VHeaders (run_headers this generated))).
Proof.
  intros generated c merged. unfold c, call_of_run, run_call.
  cbn [call_transport]. fold generated merged.
  assert (Hua : run_headers this generated !! "user-agent"
                = generated !! "user-agent").
  { unfold run_headers. destruct (truthy _); [| reflexivity].
    by rewrite lookup_insert_ne. }
  split; [| split].
  - unfold run_transportOptions.
    rewrite dom_union_L, dom_insert_L, dom_singleton_L. set_solver.
  - intros Hnone. rewrite run_transportOptions_lookup, Hnone, Hua.
    by simplify_map_eq.
  - intros Hnone. rewrite run_transportOptions_lookup, Hnone.
    by simplify_map_eq.
Qed.

(** X12. A run without run options behaves as one with empty run
    options: the call is the same, and without a proxy its HTTP client
    options are the configured ones. *)
Theorem run_without_options this input (generated : gmap string string) :
  run_call this input None generated
  = run_call this input (Some emptyRunOptions) generated
  /\ (truthy (http_proxy_url (options this)) = false ->
      run_httpClientOptions this None
      = spread (httpClientOptions (options this)))
  /\ (forall p, run_searchOptions this p None !! "offset"
                = match spread (search (options this)) !! "offset" with
                  | Some v => Some v
                  | None => Some (VNum (maxResultsPerPage (options this) * (p - 1)))
                  end).
Proof.
  split; [reflexivity |]. split.
  - intros Hproxy. unfold run_httpClientOptions. rewrite Hproxy. cbn.
    apply (left_id_L ∅ (∪)).
  - intros p. rewrite run_searchOptions_lookup. cbn.
    rewrite lookup_empty.
    destruct (spread (search (options this)) !! "offset"); [reflexivity |].
    by simplify_map_eq.
Qed.

(** ** Validation and the offset together *)

(** X8. For an input the schema accepted, a cap that is not negative
    and search options without an [offset] of their own, the offset of
    the call is the cap times a number from 0 to 9: never negative and
    at most nine pages in. *)
Theorem validated_offset_bounds this (input : gmap string Raw) ti opts w :
  inputSchema StringToNumber input = inr ti ->
  0 <= maxResultsPerPage (options this) ->
  spread (opts ≫= r_search) !! "offset" = None ->
  spread (search (options this)) !! "offset" = None ->
  exists k,
    call_search (call_of_run getHeaders this ti opts w) !! "offset"
    = Some (VNum (maxResultsPerPage (options this) * k))
    /\ 0 <= k <= 9
    /\ 0 <= maxResultsPerPage (options this) * k
       <= 9 * maxResultsPerPage (options this).
Proof.
  intros Hti Hcap Hper Hcfg.
  exists (default 1 (page ti) - 1).
  unfold call_of_run, run_call. cbn [call_search].
  rewrite run_searchOptions_lookup, Hper, Hcfg.
  split; [by simplify_map_eq |].
  apply inputSchema_inr in Hti. destruct Hti as (_ & _ & Hpage).
  destruct (page ti) as [z |]; cbn.
  - destruct Hpage as [_ Hrange]. split; [lia | nia].
  - split; [lia | nia].
Qed.

End MoreProperties.

(** With a cap of -1 the three results of the fixed backend end the run
    in [RangeError]. *)
Lemma _run_degenerate_cap_witness :
  backend_response fixedHeaders fixedBackend negativePerPage secondPage None
                   emptyWorld = inr threeResults
  /\ maxResultsPerPage (options negativePerPage) < 0
  /\ (_run fixedHeaders fixedBackend (dropTags false) negativePerPage secondPage
           None emptyWorld).1 = inl RangeError.
Proof.
  assert (Hneg : maxResultsPerPage (options negativePerPage) < 0)
    by (cbn; lia).
  split; [reflexivity |]. split; [exact Hneg |].
  destruct (_run_degenerate_cap fixedHeaders fixedBackend (dropTags false)
              negativePerPage secondPage None emptyWorld threeResults eq_refl)
    as [Hnegative _].
  exact (proj1 (Hnegative Hneg)).
Defined.

(** With header sets that lack a user agent, the call carries
    [user_agent] as [undefined]. *)
Lemma call_transport_keys_witness :
  run_httpClientOptions twoPerPage None !! "user_agent" = None
  /\ call_transport (call_of_run bareHeaders twoPerPage secondPage None
                                emptyWorld) !! "user_agent"
     = Some VUndefined.
Proof.
  assert (Hnone : run_httpClientOptions twoPerPage None !! "user_agent" = None)
    by (vm_compute; reflexivity).
  split; [exact Hnone |].
  destruct (call_transport_keys bareHeaders twoPerPage secondPage None
              emptyWorld) as (_ & Hua & _).
  exact (Hua Hnone).
Defined.

(** A numeric query is rejected with a type issue on [query]. *)
Lemma inputSchema_query_not_coerced_witness :
  (forall s, numericQuery !! "query" <> Some (RString s))
  /\ exists rest,
      inputSchema decimalToNumber numericQuery
      = inl (ValidationError (("query", invalid_type) :: rest)).
Proof.
  assert (Hq : forall s, numericQuery !! "query" <> Some (RString s))
    by (intros s; vm_compute; discriminate).
  split; [exact Hq |].
  exact (inputSchema_query_not_coerced decimalToNumber numericQuery Hq).
Defined.

(** The page [true] is accepted as page 1. *)
Lemma page_coercion_of_null_and_booleans_witness :
  pageTrue !! "query" = Some (RString "rocq")
  /\ (1 <= String.length "rocq" <= 128)%nat
  /\ pageTrue !! "page" = Some (RBool true)
  /\ inputSchema decimalToNumber pageTrue
     = inr {| query := "rocq"; page := Some 1 |}.
Proof.
  assert (Hlen : (1 <= String.length "rocq" <= 128)%nat) by (cbn; lia).
  split; [reflexivity |]. split; [exact Hlen |]. split; [reflexivity |].
  destruct (page_coercion_of_null_and_booleans decimalToNumber pageTrue "rocq"
              eq_refl Hlen) as [Htrue _].
  exact (Htrue eq_refl).
Defined.

(** The third page of two results each starts at offset four. *)
Lemma validated_offset_bounds_witness :
  inputSchema decimalToNumber pageThreeString
  = inr {| query := "rocq"; page := Some 3 |}
  /\ 0 <= maxResultsPerPage (options twoPerPage)
  /\ exists k,
      call_search (call_of_run fixedHeaders twoPerPage
                               {| query := "rocq"; page := Some 3 |} None
                               emptyWorld) !! "offset"
      = Some (VNum (maxResultsPerPage (options twoPerPage) * k))
      /\ 0 <= k <= 9
      /\ 0 <= maxResultsPerPage (options twoPerPage) * k
         <= 9 * maxResultsPerPage (options twoPerPage).
Proof.
  assert (Hti : inputSchema decimalToNumber pageThreeString
                = inr {| query := "rocq"; page := Some 3 |})
    by (vm_compute; reflexivity).
  assert (Hcap : 0 <= maxResultsPerPage (options twoPerPage)) by (cbn; lia).
  split; [exact Hti |]. split; [exact Hcap |].
  apply (validated_offset_bounds fixedHeaders decimalToNumber twoPerPage
           pageThreeString _ None emptyWorld Hti Hcap);
    vm_compute; reflexivity.
Defined.

(** ** The run with the construction of the proxy agent *)

Section CheckedRun.

Variable getHeaders : nat -> gmap string string.
Variable rawDDGSearch : Call -> World -> Error + list SearchToolResult.
Variable stripHtml : string -> string.
Variable URL_canParse : string -> bool.

Lemma build_httpClientOptions_buildable this opts :
  agent_buildable URL_canParse this = true ->
  build_httpClientOptions URL_canParse this opts
  = inr (run_httpClientOptions this opts).
Proof.
  unfold agent_buildable, build_httpClientOptions, run_httpClientOptions,
    new_HttpsProxyAgent.
  destruct (truthy _); cbn [negb orb]; [intros -> | intros _]; reflexivity.
Qed.

Lemma build_httpClientOptions_unbuildable this opts :
  agent_buildable URL_canParse this = false ->
  build_httpClientOptions URL_canParse this opts = inl TypeError.
Proof.
  unfold agent_buildable, build_httpClientOptions, new_HttpsProxyAgent.
  destruct (truthy _); cbn [negb orb]; [intros -> | discriminate].
  reflexivity.
Qed.

(** When the agent can be built, the run is the [_run] of the other
    properties. *)
Lemma _run_checked_buildable this input opts w :
  agent_buildable URL_canParse this = true ->
  _run_checked getHeaders rawDDGSearch stripHtml URL_canParse this input opts w
  = _run getHeaders rawDDGSearch stripHtml this input opts w.
Proof.
  intros Hok. unfold _run_checked, _run, bind, draw_headers.
  rewrite (build_httpClientOptions_buildable this opts Hok). reflexivity.
Qed.

(** X1. A run draws exactly one header set.  When a proxy URL is
    configured that does not parse, the run fails with [TypeError]
    before any call to the backend.  Otherwise it makes exactly one
    call, with the validated query as it is and through the tool's
    client, and what the backend throws is what the run fails with:
    nothing is tried again. *)
Theorem _run_checked_at_most_one_call this input opts w :
  let r := _run_checked getHeaders rawDDGSearch stripHtml URL_canParse
                        this input opts w in
  let c := call_of_run getHeaders this input opts w in
  headers_drawn r.2 = S (headers_drawn w)
  /\ (agent_buildable URL_canParse this = false ->
      r.1 = inl TypeError /\ backend_calls r.2 = backend_calls w)
  /\ (agent_buildable URL_canParse this = true ->
      r = _run getHeaders rawDDGSearch stripHtml this input opts w
      /\ backend_calls r.2 = (backend_calls w ++ [c])%list
      /\ call_query c = query input
      /\ call_client c = client this
      /\ (forall e,
           backend_response getHeaders rawDDGSearch this input opts w = inl e ->
           r.1 = inl e)).
Proof.
  intros r c.
  destruct (agent_buildable URL_canParse this) eqn:Hok.
  - assert (Hr : r = _run getHeaders rawDDGSearch stripHtml this input opts w)
      by (apply _run_checked_buildable, Hok).
    rewrite Hr, _run_world. cbn [headers_drawn backend_calls].
    split; [reflexivity |]. split; [discriminate |]. intros _.
    do 4 (split; [reflexivity |]).
    intros e He. rewrite _run_eq, He. reflexivity.
  - assert (Hr : r = (inl TypeError, after_draw w)).
    { unfold r, _run_checked, bind, draw_headers.
      rewrite (build_httpClientOptions_unbuildable this opts Hok). reflexivity. }
    rewrite Hr. cbn. split; [reflexivity |].
    split; [intros _; split; reflexivity | discriminate].
Qed.

End CheckedRun.

(** With the proxy URL ["not a url"], the run fails with [TypeError] and
    the backend is never called; without a proxy and with a failing
    backend, the run fails with the backend's error after one call. *)
Lemma _run_checked_at_most_one_call_witness :
  agent_buildable httpSchemeOnly badProxyTool = false
  /\ (_run_checked fixedHeaders fixedBackend (dropTags false) httpSchemeOnly
                   badProxyTool secondPage None emptyWorld).1 = inl TypeError
  /\ backend_calls
       (_run_checked fixedHeaders fixedBackend (dropTags false) httpSchemeOnly
                     badProxyTool secondPage None emptyWorld).2 = []
  /\ agent_buildable httpSchemeOnly twoPerPage = true
  /\ (_run_checked fixedHeaders failingBackend (dropTags false) httpSchemeOnly
                   twoPerPage secondPage None emptyWorld).1
     = inl (BackendFailure "anomaly")
  /\ length (backend_calls
               (_run_checked fixedHeaders failingBackend (dropTags false)
                             httpSchemeOnly twoPerPage secondPage None
                             emptyWorld).2) = 1%nat.
Proof.
  assert (Hbad : agent_buildable httpSchemeOnly badProxyTool = false)
    by reflexivity.
  assert (Hok : agent_buildable httpSchemeOnly twoPerPage = true)
    by reflexivity.
  destruct (_run_checked_at_most_one_call fixedHeaders fixedBackend
              (dropTags false) httpSchemeOnly badProxyTool secondPage None
              emptyWorld) as (_ & Hfail & _).
  destruct (_run_checked_at_most_one_call fixedHeaders failingBackend
              (dropTags false) httpSchemeOnly twoPerPage secondPage None
              emptyWorld) as (_ & _ & Hcall).
  destruct (Hcall Hok) as (_ & Hcalls & _ & _ & Hthrown).
  split; [exact Hbad |]. split; [exact (proj1 (Hfail Hbad)) |].
  split; [exact (proj2 (Hfail Hbad)) |]. split; [exact Hok |].
  split; [exact (Hthrown _ eq_refl) |].
  rewrite Hcalls. reflexivity.
Defined.
